(** * PDF question answering over a vector index: the pipeline of
    [rag_system.py] and its drivers.

    The class [PDFRAGSystem] is embedded with explicit state passing: a
    machine state holds the Python object ([self]) and the world it acts on
    (environment variables, the PDF directory, the persisted Chroma
    snapshots, the embedding provider and the language model).  Methods are
    computations in a state-and-exception monad; [raise] keeps the state
    reached so far, as a Python exception does.  Calls that leave the
    process are recorded in a trace.  [print] statements are not modelled. *)

From Stdlib Require Import Ascii String QArith Sorted.
From stdpp Require Import base option list strings gmap.

Set Default Proof Using "Type".
Local Open Scope string_scope.
Local Open Scope list_scope.

(** ** Exceptions *)

(** [ValueError] is the only exception the repository raises itself;
    [KeyError] is what formatting a template raises for a field without a
    value.  The other constructors name the failures of the collaborators as
    the design document calls them. *)
Inductive exn : Type :=
| ValueError (msg : string)
| KeyError (key : string)
| UnreadableDocumentError
| EmbeddingError
| SnapshotNotFoundError
| SnapshotCorruptError
| GenerationError.

Inductive Result (A : Type) : Type :=
| Ok (a : A)
| Raise (e : exn).

Arguments Ok {A} a.
Arguments Raise {A} e.

(** ** Data *)

Definition nl : string := String (Ascii.ascii_of_nat 10) "".

(** A langchain [Document]: the text and the metadata keys [source] and
    [page] that the drivers read back. *)
Record Document : Type := mkDocument {
  page_content : string;
  source : string;
  page : nat }.

(** A PDF file as the extractor sees it: its path and, when it is readable,
    the text of its pages in order. *)
Record PdfFile : Type := mkPdfFile {
  pdf_path : string;
  pdf_pages : option (list string) }.

Definition vector : Type := list Q.

(** The embedding adapter: its dimension, its model tag and the embedding
    function ([None]: the provider fails). *)
Record Adapter : Type := mkAdapter {
  ad_dim : nat;
  ad_tag : string;
  embed : string -> option vector }.

Record VectorRecord : Type := mkVectorRecord {
  rec_id : nat;
  rec_vector : vector;
  rec_text : string;
  rec_source : string;
  rec_page : nat }.

(** The records of an index with the identity of the embedding model that
    produced them; the same shape in memory and on disk. *)
Record Snapshot : Type := mkSnapshot {
  snap_dim : nat;
  snap_tag : string;
  snap_records : list VectorRecord }.

(** The [Chroma] object: the index and the embedding function it was
    opened with. *)
Record Chroma : Type := mkChroma {
  embedding_function : Adapter;
  index : Snapshot }.

(** [ChatOpenAI(model_name=..., temperature=...)]. *)
Record ChatOpenAI : Type := mkChatOpenAI {
  model_name : string;
  temperature : Z }.

Record PromptTemplate : Type := mkPromptTemplate {
  input_variables : list string;
  template : string }.

(** [vectorstore.as_retriever(search_kwargs={"k": k})]. *)
Record Retriever : Type := mkRetriever {
  ret_vectorstore : Chroma;
  search_k : nat }.

(** The arguments [RetrievalQA.from_chain_type] is given. *)
Record RetrievalQA : Type := mkRetrievalQA {
  qa_llm : ChatOpenAI;
  chain_type : string;
  retriever : Retriever;
  return_source_documents : bool;
  qa_prompt : PromptTemplate }.

(** The dictionary a chain call returns. *)
Record QAResult : Type := mkQAResult {
  res_query : string;
  result : string;
  source_documents : list Document }.

Record PDFRAGSystem : Type := mkPDFRAGSystem {
  pdf_directory : string;
  persist_directory : string;
  vectorstore : option Chroma;
  qa_chain : option RetrievalQA }.

(** Calls that leave the process, in the order they happen. *)
Inductive Event : Type :=
| EvGlob (dir : string)
| EvLoadPdf (path : string)
| EvFromDocuments (documents : list Document)
| EvEmbedQuery (text : string)
| EvPersist (location : string)
| EvOpen (location : string)
| EvGenerate (cfg : ChatOpenAI) (prompt : string).

Record World : Type := mkWorld {
  environ : gmap string string;
  pdf_glob : string -> list PdfFile;
  chroma_db : gmap string Snapshot;
  OpenAIEmbeddings : Adapter;
  generate : ChatOpenAI -> string -> option string;
  trace : list Event }.

Record Machine : Type := mkMachine {
  self : PDFRAGSystem;
  world : World }.

(** ** The state-and-exception monad *)

Definition M (A : Type) : Type := Machine -> Result A * Machine.

Definition ret {A : Type} (a : A) : M A := fun m => (Ok a, m).

Definition raise {A : Type} (e : exn) : M A := fun m => (Raise e, m).

Definition bind {A B : Type} (c : M A) (k : A -> M B) : M B :=
  fun m => match c m with
           | (Ok a, m') => k a m'
           | (Raise e, m') => (Raise e, m')
           end.

Declare Scope rag_scope.
Delimit Scope rag_scope with rag.
Notation "x <- c ;; k" := (bind c (fun x => k))
  (at level 100, c at next level, right associativity) : rag_scope.
Notation "c ;; k" := (bind c (fun _ => k))
  (at level 100, right associativity) : rag_scope.
Local Open Scope rag_scope.

Definition get_self : M PDFRAGSystem := fun m => (Ok (self m), m).

Definition get_world : M World := fun m => (Ok (world m), m).

Definition set_self (s : PDFRAGSystem) : M unit :=
  fun m => (Ok tt, mkMachine s (world m)).

Definition set_world (w : World) : M unit :=
  fun m => (Ok tt, mkMachine (self m) w).

Definition log_event (w : World) (e : Event) : World :=
  mkWorld (environ w) (pdf_glob w) (chroma_db w) (OpenAIEmbeddings w)
          (generate w) (trace w ++ [e]).

Definition emit (e : Event) : M unit :=
  w <- get_world ;; set_world (log_event w e).

Definition set_vectorstore (v : option Chroma) : M unit :=
  s <- get_self ;;
  set_self (mkPDFRAGSystem (pdf_directory s) (persist_directory s) v (qa_chain s)).

Definition set_qa_chain (c : option RetrievalQA) : M unit :=
  s <- get_self ;;
  set_self (mkPDFRAGSystem (pdf_directory s) (persist_directory s) (vectorstore s) c).

(** ** [PDFRAGSystem.__init__] *)

(** The object keeps [Path(pdf_directory)]: the field [pdf_directory] holds
    the string form of that path, and the argument is taken as already in
    that form, as the default ["."] of every driver is.

    Python truth of [os.getenv(name)]: [None] and the empty string are
    false. *)
Definition getenv (w : World) (name : string) : option string :=
  environ w !! name.

Definition truthy (v : option string) : bool :=
  match v with
  | None => false
  | Some "" => false
  | Some _ => true
  end.

Definition PDFRAGSystem_init (pdf_directory persist_directory : string) : M unit :=
  set_self (mkPDFRAGSystem pdf_directory persist_directory None None) ;;
  w <- get_world ;;
  if negb (truthy (getenv w "OPENAI_API_KEY"))
  then raise (ValueError
    "OPENAI_API_KEY environment variable not set. Please set it in .env file or environment.")
  else ret tt.

(** ** Exceptions at the level of the drivers *)

(** What can leave a driver: an exception of the pipeline (all of them are
    subclasses of [Exception]), the [EOFError] of [input()] at the end of the
    input, [SystemExit], which [except Exception] does not catch, the
    [OSError] of [stat()] on a file that cannot be examined, and what an
    import statement raises: [ImportError], or something else
    ([ImportCrash]). *)
Inductive driver_exn : Type :=
| Pipeline (e : exn)
| EOFError
| SystemExit (code : Z)
| OSError
| ImportError (module_name : string)
| ImportCrash (module_name : string).

Inductive Outcome (A : Type) : Type :=
| Returned (a : A)
| Escaped (e : driver_exn).

Arguments Returned {A} a.
Arguments Escaped {A} e.

Definition DM (A : Type) : Type := Machine -> Outcome A * Machine.

Definition dret {A : Type} (a : A) : DM A := fun m => (Returned a, m).

Definition escape {A : Type} (e : driver_exn) : DM A := fun m => (Escaped e, m).

Definition dbind {A B : Type} (c : DM A) (k : A -> DM B) : DM B :=
  fun m => match c m with
           | (Returned a, m') => k a m'
           | (Escaped e, m') => (Escaped e, m')
           end.

(** A call of a method of the pipeline from a driver. *)
Definition lift {A : Type} (c : M A) : DM A :=
  fun m => match c m with
           | (Ok a, m') => (Returned a, m')
           | (Raise e, m') => (Escaped (Pipeline e), m')
           end.

(** [try: body except <class>: handler]: the handler runs in the state the
    exception left. *)
Definition try_except {A : Type} (body : DM A) (caught : driver_exn -> bool)
  (handler : driver_exn -> DM A) : DM A :=
  fun m => match body m with
           | (Returned a, m') => (Returned a, m')
           | (Escaped e, m') => if caught e then handler e m' else (Escaped e, m')
           end.

Definition is_Exception (e : driver_exn) : bool :=
  match e with
  | SystemExit _ => false
  | _ => true
  end.

Definition is_ValueError (e : driver_exn) : bool :=
  match e with
  | Pipeline (ValueError _) => true
  | _ => false
  end.

Declare Scope drv_scope.
Delimit Scope drv_scope with drv.
Notation "x <- c ;; k" := (dbind c (fun x => k))
  (at level 100, c at next level, right associativity) : drv_scope.
Notation "c ;; k" := (dbind c (fun _ => k))
  (at level 100, right associativity) : drv_scope.

(** [os.path.exists(path)] for a persist location: the only thing the model
    keeps on disk there is a snapshot. *)
Definition path_exists (w : World) (path : string) : bool :=
  bool_decide (is_Some (chroma_db w !! path)).

Section Pipeline.

(** ** Collaborators of the pipeline whose code is outside the repository *)

(** Modelled from the spec: the Chunker ([RecursiveCharacterTextSplitter],
    imported from langchain) is missing from the sources.  The design
    document gives it as a function of the text, [chunk_size] and
    [chunk_overlap] with no side effects; it is taken as such. *)
Variable split_text : nat -> nat -> string -> list string.

(** Modelled from the spec: the similarity the Vector Index ranks by (cosine
    similarity, computed inside Chroma) is missing from the sources; any
    function from two vectors to a rational score is admitted. *)
Variable cosine_similarity : vector -> vector -> Q.

(** Modelled from the spec: the text the "stuff" chain puts between two
    passages is missing from the sources. *)
Variable document_separator : string.

(** ** [PDFRAGSystem.load_pdfs] *)

(** [PyPDFLoader(path).load()]: one document per page, tagged with the path
    and the 0-based page index. *)
Definition PyPDFLoader_load (f : PdfFile) : M (list Document) :=
  emit (EvLoadPdf (pdf_path f)) ;;
  match pdf_pages f with
  | None => raise UnreadableDocumentError
  | Some pages => ret (imap (fun i text => mkDocument text (pdf_path f) i) pages)
  end.

(** The loop [for pdf_file in pdf_files: ... documents.extend(docs)]. *)
Fixpoint load_each (pdf_files : list PdfFile) (documents : list Document)
  : M (list Document) :=
  match pdf_files with
  | [] => ret documents
  | pdf_file :: rest =>
      docs <- PyPDFLoader_load pdf_file ;;
      load_each rest (documents ++ docs)
  end.

Definition load_pdfs : M (list Document) :=
  s <- get_self ;;
  emit (EvGlob (pdf_directory s)) ;;
  w <- get_world ;;
  let pdf_files := pdf_glob w (pdf_directory s) in
  match pdf_files with
  | [] => raise (ValueError ("No PDF files found in " +:+ pdf_directory s))
  | _ :: _ => load_each pdf_files []
  end.

(** ** The Chunker *)

Record RecursiveCharacterTextSplitter : Type := mkSplitter {
  chunk_size : nat;
  chunk_overlap : nat }.

(** Modelled from the spec: [split_documents] is missing from the sources.
    Pages are processed independently and in order, and every chunk keeps
    the document identifier and the page index of the page it comes from. *)
Definition split_documents (ts : RecursiveCharacterTextSplitter)
  (documents : list Document) : list Document :=
  flat_map (fun d => map (fun text => mkDocument text (source d) (page d))
                         (split_text (chunk_size ts) (chunk_overlap ts) (page_content d)))
           documents.

(** ** The Vector Index *)

Definition embed_batch (a : Adapter) (texts : list string) : option (list vector) :=
  mapM (embed a) texts.

Definition make_records (chunks : list Document) (vectors : list vector)
  : list VectorRecord :=
  imap (fun i cv => mkVectorRecord i (snd cv) (page_content (fst cv))
                                   (source (fst cv)) (page (fst cv)))
       (zip chunks vectors).

(** The snapshot a build writes: the adapter's dimension and tag with the
    records. *)
Definition built_snapshot (a : Adapter) (chunks : list Document)
  (vectors : list vector) : Snapshot :=
  mkSnapshot (ad_dim a) (ad_tag a) (make_records chunks vectors).

Definition persist (w : World) (location : string) (snap : Snapshot) : World :=
  mkWorld (environ w) (pdf_glob w) (<[location := snap]> (chroma_db w))
          (OpenAIEmbeddings w) (generate w) (trace w ++ [EvPersist location]).

(** Modelled from the spec: [Chroma.from_documents] (the Vector Index
    [build]) is missing from the sources.  It embeds every chunk, numbers the
    records in order, and writes them with the identity of the embedding
    model at the location, over whatever was there; when the adapter fails
    on a chunk nothing is written.  It returns the in-memory index. *)
Definition Chroma_from_documents (documents : list Document) (embedding : Adapter)
  (location : string) : M Chroma :=
  emit (EvFromDocuments documents) ;;
  match embed_batch embedding (map page_content documents) with
  | None => raise EmbeddingError
  | Some vectors =>
      let snap := built_snapshot embedding documents vectors in
      w <- get_world ;;
      set_world (persist w location snap) ;;
      ret (mkChroma embedding snap)
  end.

Definition identity_matches (snap : Snapshot) (a : Adapter) : bool :=
  bool_decide (snap_dim snap = ad_dim a) && bool_decide (snap_tag snap = ad_tag a).

(** Modelled from the spec: [chromadb.PersistentClient(path)] followed by
    [Chroma(client, embedding_function)] (the Vector Index [load]) is missing
    from the sources.  It opens the snapshot at the location without
    embedding anything, and fails when there is none or when the stored
    dimension or tag is not the adapter's. *)
Definition Chroma_open (location : string) (embedding : Adapter) : M Chroma :=
  emit (EvOpen location) ;;
  w <- get_world ;;
  match chroma_db w !! location with
  | None => raise SnapshotNotFoundError
  | Some snap =>
      if identity_matches snap embedding
      then ret (mkChroma embedding snap)
      else raise SnapshotCorruptError
  end.

Definition scored : Type := VectorRecord * Q.

(** [x] may stand before [y] in a result: its score is not below [y]'s. *)
Definition score_ge (x y : scored) : Prop := (snd y <= snd x)%Q.

Definition score_of (query_vector : vector) (r : VectorRecord) : scored :=
  (r, cosine_similarity (rec_vector r) query_vector).

(** [x] goes before the first record whose score is not above its own, so
    that of two records with one score the one inserted first stays first. *)
Fixpoint insert_by_score (x : scored) (l : list scored) : list scored :=
  match l with
  | [] => [x]
  | y :: l' => if Qle_bool (snd y) (snd x) then x :: y :: l'
               else y :: insert_by_score x l'
  end.

Definition rank (l : list scored) : list scored := foldr insert_by_score [] l.

(** Modelled from the spec: the Vector Index [query] (Chroma's similarity
    search) is missing from the sources.  It returns the [k] records of
    highest similarity to the query vector, highest first, ties in insertion
    order, and all the records when there are fewer than [k]. *)
Definition query (idx : Snapshot) (query_vector : vector) (k : nat) : list scored :=
  take k (rank (map (score_of query_vector) (snap_records idx))).

Definition as_retriever (vs : Chroma) (k : nat) : Retriever := mkRetriever vs k.

(** The Retriever: one call to the adapter for the query text, then
    [query]. *)
Definition retrieve (r : Retriever) (text : string) : M (list scored) :=
  emit (EvEmbedQuery text) ;;
  match embed (embedding_function (ret_vectorstore r)) text with
  | None => raise EmbeddingError
  | Some v => ret (query (index (ret_vectorstore r)) v (search_k r))
  end.

Definition passage (r : VectorRecord) : Document :=
  mkDocument (rec_text r) (rec_source r) (rec_page r).

(** ** [PDFRAGSystem.create_vectorstore] *)

Definition create_vectorstore (documents : list Document) : M unit :=
  let text_splitter := mkSplitter 1000 200 in
  let splits := split_documents text_splitter documents in
  w <- get_world ;;
  let embeddings := OpenAIEmbeddings w in
  s <- get_self ;;
  v <- Chroma_from_documents splits embeddings (persist_directory s) ;;
  set_vectorstore (Some v).

(** ** [PDFRAGSystem.setup_qa_chain] *)

Fixpoint lookup_field (name : string) (values : list (string * string))
  : option string :=
  match values with
  | [] => None
  | (key, value) :: rest =>
      if String.eqb key name then Some value else lookup_field name rest
  end.

(** [str.format] with keyword values, for a template whose replacement fields are
    plain names (no doubled braces, conversions or format specifications):
    [field] is the name being read once a left brace was seen.  Values are
    copied and not scanned again. *)
Fixpoint format_from (t : string) (field : option string)
  (values : list (string * string)) : Result string :=
  match t, field with
  | EmptyString, None => Ok ""
  | EmptyString, Some _ => Raise (ValueError "expected '}' before end of string")
  | String c t', None =>
      if Ascii.eqb c "{" then format_from t' (Some "") values
      else if Ascii.eqb c "}"
      then Raise (ValueError "Single '}' encountered in format string")
      else match format_from t' None values with
           | Ok out => Ok (String c out)
           | Raise e => Raise e
           end
  | String c t', Some name =>
      if Ascii.eqb c "}"
      then match lookup_field name values with
           | None => Raise (KeyError name)
           | Some value =>
               match format_from t' None values with
               | Ok out => Ok (value +:+ out)
               | Raise e => Raise e
               end
           end
      else format_from t' (Some (name +:+ String c "")) values
  end.

Definition format (p : PromptTemplate) (values : list (string * string))
  : Result string :=
  format_from (template p) None values.

Definition qa_template : string :=
  "Use the following pieces of context to answer the question at the end. " +:+ nl +:+
  "If you don't know the answer, just say that you don't know, don't try to make up an answer." +:+ nl +:+
  nl +:+
  "Context: {context}" +:+ nl +:+
  nl +:+
  "Question: {question}" +:+ nl +:+
  nl +:+
  "Answer: ".

Definition setup_qa_chain : M unit :=
  s <- get_self ;;
  match vectorstore s with
  | None => raise (ValueError
      "Vector store not initialized. Call create_vectorstore first.")
  | Some vs =>
      let llm := mkChatOpenAI "gpt-3.5-turbo" 0 in
      let QA_CHAIN_PROMPT := mkPromptTemplate ["context"; "question"] qa_template in
      set_qa_chain (Some (mkRetrievalQA llm "stuff" (as_retriever vs 4) true
                                        QA_CHAIN_PROMPT))
  end.

(** ** Calling the chain *)

(** Modelled from the spec: the "stuff" chain is missing from the sources.
    It puts the passage texts one after the other, in the order the
    Retriever gave them, into the [context] field of the prompt. *)
Definition stuff (docs : list Document) : string :=
  String.concat document_separator (map page_content docs).

(** Modelled from the spec: [RetrievalQA.__call__] is missing from the
    sources.  It retrieves, formats the one prompt, and hands it to the
    language model; an error or an empty answer is a [GenerationError]. *)
Definition RetrievalQA_call (chain : RetrievalQA) (question : string) : M QAResult :=
  hits <- retrieve (retriever chain) question ;;
  let docs := map (fun h => passage (fst h)) hits in
  match format (qa_prompt chain) [("context", stuff docs); ("question", question)] with
  | Raise e => raise e
  | Ok prompt =>
      emit (EvGenerate (qa_llm chain) prompt) ;;
      w <- get_world ;;
      match generate w (qa_llm chain) prompt with
      | None => raise GenerationError
      | Some answer =>
          if String.eqb answer "" then raise GenerationError
          else ret (mkQAResult question answer
                      (if return_source_documents chain then docs else []))
      end
  end.

(** ** [PDFRAGSystem.ask_question] and [PDFRAGSystem.initialize] *)

Definition ask_question (question : string) : M QAResult :=
  s <- get_self ;;
  match qa_chain s with
  | None => raise (ValueError "QA chain not initialized. Call setup_qa_chain first.")
  | Some chain => RetrievalQA_call chain question
  end.

Definition initialize : M unit :=
  documents <- load_pdfs ;;
  create_vectorstore documents ;;
  setup_qa_chain.

(** ** The drivers *)

(** The block the three drivers share for an existing index
    ([rag_system.main], [interactive_demo.main],
    [streamlit_app.initialize_rag_system]). *)
Definition load_existing : M unit :=
  w <- get_world ;;
  let embeddings := OpenAIEmbeddings w in
  s <- get_self ;;
  vs <- Chroma_open (persist_directory s) embeddings ;;
  set_vectorstore (Some vs) ;;
  setup_qa_chain.

(** [python rag_system.py init] and [python rag_system.py query question]. *)
Definition main_init : M unit :=
  PDFRAGSystem_init "." "./chroma_db" ;;
  initialize.

Definition main_query (question : string) : M QAResult :=
  PDFRAGSystem_init "." "./chroma_db" ;;
  load_existing ;;
  ask_question question.

(** The pipeline is ready once the chain exists. *)
Definition READY (s : PDFRAGSystem) : Prop := is_Some (qa_chain s).

(** A later run of the program on the same disk: a new object with the
    same directories, and the world as the earlier run left it. *)
Definition restart (m : Machine) : Machine :=
  mkMachine (mkPDFRAGSystem (pdf_directory (self m)) (persist_directory (self m))
                            None None)
            (world m).

(** The events a computation added to the trace. *)
Definition new_events (before after : Machine) : list Event :=
  drop (length (trace (world before))) (trace (world after)).

(** The machines met while the pipeline is being set up: after the
    constructor, after the documents were read, after the index was built or
    assigned by a driver, and after a [setup_qa_chain] that found no vector
    store. *)
Inductive initializing : Machine -> Prop :=
| init_constructed (pd ps : string) (m : Machine) :
    initializing (snd (PDFRAGSystem_init pd ps m))
| init_documents_read (m : Machine) :
    initializing m -> initializing (snd (load_pdfs m))
| init_index_built (documents : list Document) (m : Machine) :
    initializing m -> initializing (snd (create_vectorstore documents m))
| init_index_opened (location : string) (a : Adapter) (m : Machine) :
    initializing m -> initializing (snd (Chroma_open location a m))
| init_index_assigned (v : option Chroma) (m : Machine) :
    initializing m -> initializing (snd (set_vectorstore v m))
| init_setup_refused (m : Machine) :
    initializing m -> vectorstore (self m) = None ->
    initializing (snd (setup_qa_chain m)).

(** ** [rag_system.main] *)

(** [argv] is [sys.argv].  The usage texts are only printed; [sys.exit(1)]
    raises [SystemExit]. *)
Definition main (argv : list string) : DM unit :=
  (lift (PDFRAGSystem_init "." "./chroma_db") ;;
   if bool_decide (argv !! 1 = Some "init") then
     lift initialize
   else if bool_decide (argv !! 1 = Some "query") then
     match argv !! 2 with
     | None => escape (SystemExit 1)
     | Some question =>
         lift load_existing ;;
         _ <- lift (ask_question question) ;;
         dret tt
     end
   else dret tt)%drv.

(** ** [interactive_demo.main] *)

(** [str.strip()] and [str.lower()] on ASCII text: the white space of the
    ASCII range (codes 9 to 13 and 28 to 32) and the letters A to Z.  Python
    also strips white space outside ASCII (U+0085, U+00A0, ...) and lowers
    letters outside ASCII; the two functions below agree with it on ASCII
    text only, and what is proved of the question loop is stated for input
    lines that are ASCII text. *)
Fixpoint is_ascii_text (s : string) : bool :=
  match s with
  | EmptyString => true
  | String c s' => (nat_of_ascii c <? 128)%nat && is_ascii_text s'
  end.

Definition is_space (c : ascii) : bool :=
  let n := nat_of_ascii c in
  ((9 <=? n)%nat && (n <=? 13)%nat) || ((28 <=? n)%nat && (n <=? 32)%nat).

Fixpoint lstrip (s : string) : string :=
  match s with
  | EmptyString => EmptyString
  | String c s' => if is_space c then lstrip s' else s
  end.

Fixpoint reverse_onto (s acc : string) : string :=
  match s with
  | EmptyString => acc
  | String c s' => reverse_onto s' (String c acc)
  end.

Definition strip (s : string) : string :=
  reverse_onto (lstrip (reverse_onto (lstrip s) "")) "".

Definition lower_char (c : ascii) : ascii :=
  let n := nat_of_ascii c in
  if (65 <=? n)%nat && (n <=? 90)%nat then ascii_of_nat (n + 32) else c.

Fixpoint lower (s : string) : string :=
  match s with
  | EmptyString => EmptyString
  | String c s' => String (lower_char c) (lower s')
  end.

(** [question.lower() in ['quit', 'exit', 'q']]. *)
Definition is_quit (question : string) : bool :=
  existsb (String.eqb (lower question)) ["quit"; "exit"; "q"].

(** The [while True] loop; [stdin] holds the lines [input()] will return.
    [input()] is outside the [try], the call of [ask_question] inside. *)
Fixpoint question_loop (stdin : list string) : DM unit :=
  match stdin with
  | [] => escape EOFError
  | line :: rest =>
      let question := strip line in
      if is_quit question then dret tt
      else if String.eqb question "" then question_loop rest
      else (try_except (_ <- lift (ask_question question) ;; dret tt)
                       is_Exception (fun _ => dret tt) ;;
            question_loop rest)%drv
  end.

(** The set-up of the demo gives [false] where the source prints the error
    and returns. *)
Definition demo_setup : DM bool :=
  (lift (PDFRAGSystem_init "." "./chroma_db") ;;
   w <- lift get_world ;;
   if negb (path_exists w "./chroma_db")
   then try_except (lift initialize ;; dret true) is_ValueError (fun _ => dret false)
   else try_except (lift load_existing ;; dret true) is_Exception (fun _ => dret false))%drv.

Definition demo_main (stdin : list string) : DM unit :=
  (ready <- demo_setup ;;
   if ready : bool then question_loop stdin else dret tt)%drv.

(** ** [streamlit_app] *)

(** Both [except] clauses show the error and return [None]. *)
Definition initialize_rag_system : DM (option PDFRAGSystem) :=
  try_except
    (lift (PDFRAGSystem_init "." "./chroma_db") ;;
     w <- lift get_world ;;
     (if negb (path_exists w "./chroma_db") then lift initialize
      else lift load_existing) ;;
     rag <- lift get_self ;;
     dret (Some rag))%drv
    is_Exception (fun _ => dret None).

(** [st.session_state] once the script has set its defaults. *)
Record Session : Type := mkSession {
  st_rag_system : option PDFRAGSystem;
  st_initialized : bool;
  st_last_question : option string }.

Definition new_session : Session := mkSession None false None.

(** What one run of the script shows below the input box. *)
Inductive Rendered : Type :=
| ShowNothing
| ShowWarning
| ShowUnavailable
| ShowAnswer (r : QAResult)
| ShowError (e : driver_exn).

Definition nonempty (s : string) : bool := negb (String.eqb s "").

(** The session after the block [if not st.session_state.initialized]. *)
Definition ensure_initialized (s : Session) : DM Session :=
  if st_initialized s then dret s
  else (r <- initialize_rag_system ;;
        dret (mkSession r (match r with Some _ => true | None => st_initialized s end)
                        (st_last_question s)))%drv.

(** One run of the script from the text input on: [button] is what
    [st.button] returned, [question] what [st.text_input] returned.  The
    object the session holds is the one the methods act on. *)
Definition script_run (button : bool) (question : string) (s : Session)
  : DM (Rendered * Session) :=
  if button || (nonempty question &&
                negb (String.eqb question (default "" (st_last_question s))))
  then
    if nonempty question then
      (s2 <- ensure_initialized
               (mkSession (st_rag_system s) (st_initialized s) (Some question)) ;;
       match st_rag_system s2 with
       | Some rag =>
           lift (set_self rag) ;;
           shown <- try_except (r <- lift (ask_question question) ;;
                                dret (ShowAnswer r))
                               is_Exception (fun e => dret (ShowError e)) ;;
           rag' <- lift get_self ;;
           dret (shown, mkSession (Some rag') (st_initialized s2)
                                  (st_last_question s2))
       | None => dret (ShowUnavailable, s2)
       end)%drv
    else dret (ShowWarning, s)
  else dret (ShowNothing, s).

(** A visitor's session: the successive runs of the script. *)
Fixpoint script_runs (inputs : list (bool * string)) (s : Session) : DM Session :=
  match inputs with
  | [] => dret s
  | (button, question) :: rest =>
      (out <- script_run button question s ;;
       script_runs rest (snd out))%drv
  end.

(** ** [test_pdf_loading.test_pdf_loading] *)

(** The loop over the files: [None] where the source returns [False] from
    inside the loop. *)
Fixpoint test_load_each (pdf_files : list PdfFile) (all_documents : list Document)
  (total_pages : nat) : DM (option (list Document * nat)) :=
  match pdf_files with
  | [] => dret (Some (all_documents, total_pages))
  | pdf_file :: rest =>
      (loaded <- try_except (docs <- lift (PyPDFLoader_load pdf_file) ;;
                             dret (Some docs))
                            is_Exception (fun _ => dret None) ;;
       match loaded with
       | None => dret None
       | Some docs =>
           test_load_each rest (all_documents ++ docs) (total_pages + length docs)
       end)%drv
  end.

(** The listing loop, which prints [pdf.stat().st_size] for every file
    before any [try]: [can_stat] says for which files [stat()] returns; on
    another it raises an [OSError]. *)
Fixpoint stat_each (can_stat : PdfFile -> bool) (pdf_files : list PdfFile)
  : DM unit :=
  match pdf_files with
  | [] => dret tt
  | pdf :: rest =>
      if can_stat pdf then stat_each can_stat rest else escape OSError
  end.

Definition test_pdf_loading (can_stat : PdfFile -> bool) : DM bool :=
  (lift (emit (EvGlob ".")) ;;
   w <- lift get_world ;;
   let pdf_files := pdf_glob w "." in
   match pdf_files with
   | [] => dret false
   | _ :: _ =>
       stat_each can_stat pdf_files ;;
       counted <- test_load_each pdf_files [] 0 ;;
       match counted with
       | None => dret false
       | Some (all_documents, total_pages) => dret (0 <? length all_documents)%nat
       end
   end)%drv.

(** ** The rest of [test_pdf_loading.py] *)

(** What importing a module does in the environment the tests run in. *)
Inductive Import : Type :=
| Imports
| RaisesImportError
| RaisesOther.

(** The loop of [test_imports]: [__import__] is inside a [try] that catches
    [ImportError] only. *)
Fixpoint import_each (importer : string -> Import) (modules : list string)
  (all_passed : bool) : DM bool :=
  match modules with
  | [] => dret all_passed
  | module_name :: rest =>
      match importer module_name with
      | Imports => import_each importer rest all_passed
      | RaisesImportError => import_each importer rest false
      | RaisesOther => escape (ImportCrash module_name)
      end
  end.

Definition imports_to_test : list string :=
  ["langchain"; "langchain_community.document_loaders";
   "langchain_community.vectorstores"; "langchain_openai";
   "langchain.text_splitter"; "langchain.chains"; "pypdf"; "chromadb"].

Definition test_imports (importer : string -> Import) : DM bool :=
  import_each importer imports_to_test true.

(** [test_text_splitting]: [local_imports] is what the two import
    statements at its head raise, if anything; then the first PDF of the
    listing is loaded outside any [try] and split with the sizes the
    pipeline uses. *)
Definition test_text_splitting (local_imports : option driver_exn) : DM bool :=
  match local_imports with
  | Some e => escape e
  | None =>
      (lift (emit (EvGlob ".")) ;;
       w <- lift get_world ;;
       match pdf_glob w "." with
       | [] => dret false
       | first :: _ =>
           docs <- lift (PyPDFLoader_load first) ;;
           let splits := split_documents (mkSplitter 1000 200) docs in
           dret (0 <? length splits)%nat
       end)%drv
  end.

(** [main] of the test suite: the three tests run one after the other, all
    of them, and the exit status is 0 when all passed. *)
Definition test_main (importer : string -> Import)
  (local_imports : option driver_exn) (can_stat : PdfFile -> bool) : DM Z :=
  (imports <- test_imports importer ;;
   loading <- test_pdf_loading can_stat ;;
   splitting <- test_text_splitting local_imports ;;
   dret (if imports && loading && splitting then 0%Z else 1%Z))%drv.

(** ** What the properties below speak of *)




(** The questions sent to the embedding adapter, in order. *)
Definition asked (events : list Event) : list string :=
  omap (fun e => match e with EvEmbedQuery text => Some text | _ => None end) events.

(** The lines of the input the loop turns into questions: those before the
    first quit word that are not blank, stripped. *)
Fixpoint questions_before_quit (stdin : list string) : list string :=
  match stdin with
  | [] => []
  | line :: rest =>
      if is_quit (strip line) then []
      else if String.eqb (strip line) "" then questions_before_quit rest
      else strip line :: questions_before_quit rest
  end.

(** What the script keeps true of its session: it is marked initialized
    exactly when it holds an object, and an object it holds is ready. *)
Definition session_ok (s : Session) : Prop :=
  (st_initialized s = true <-> is_Some (st_rag_system s)) /\
  (forall rag : PDFRAGSystem, st_rag_system s = Some rag -> READY rag).

(** Events that only the set-up of an index produces. *)
Definition is_setup_event (e : Event) : bool :=
  match e with
  | EvGlob _ | EvLoadPdf _ | EvFromDocuments _ | EvPersist _ | EvOpen _ => true
  | EvEmbedQuery _ | EvGenerate _ _ => false
  end.

(** ** Concrete worlds used to exercise the statements *)

Definition length_adapter (dim : nat) (tag : string) : Adapter :=
  mkAdapter dim tag
    (fun text => Some (replicate dim (inject_Z (Z.of_nat (String.length text))))).

Definition cca_pdf : PdfFile :=
  mkPdfFile "cca.pdf"
    (Some ["Causal component analysis studies X."; "Further detail on X."]).

Definition canned_model (cfg : ChatOpenAI) (prompt : string) : option string :=
  Some "I don't know.".

Definition demo_world (env : gmap string string) (files : list PdfFile)
  (db : gmap string Snapshot) (a : Adapter) : World :=
  mkWorld env (fun dir => if String.eqb dir "." then files else []) db a
          canned_model [].

Definition blank : PDFRAGSystem := mkPDFRAGSystem "." "./chroma_db" None None.

Definition key_set : gmap string string := {[ "OPENAI_API_KEY" := "sk-test" ]}.

Definition key_empty : gmap string string := {[ "OPENAI_API_KEY" := "" ]}.

Definition whole_page (size overlap : nat) (text : string) : list string :=
  if String.eqb text "" then [] else [text].

Definition dot (u v : vector) : Q :=
  foldr Qplus 0%Q (zip_with Qmult u v).

Definition blank_line : string := nl +:+ nl.

Definition demo_adapter : Adapter := length_adapter 2 "demo".

Definition demo_records : list VectorRecord :=
  [ mkVectorRecord 0 [1%Q; 0%Q] "alpha" "a.pdf" 0;
    mkVectorRecord 1 [0%Q; 1%Q] "beta" "a.pdf" 1;
    mkVectorRecord 2 [1%Q; 1%Q] "gamma" "b.pdf" 0;
    mkVectorRecord 3 [1%Q; 0%Q] "delta" "b.pdf" 1;
    mkVectorRecord 4 [2%Q; 0%Q] "epsilon" "c.pdf" 0 ].

Definition demo_index : Snapshot := mkSnapshot 2 "demo" demo_records.

Definition demo_store : Chroma := mkChroma demo_adapter demo_index.

(** A machine on which the constructor has run with the key set. *)
Definition demo_machine (files : list PdfFile) (db : gmap string Snapshot)
  (a : Adapter) : Machine :=
  mkMachine blank (demo_world key_set files db a).

(** A machine whose object holds [demo_store] and no chain yet. *)
Definition stored_machine : Machine :=
  mkMachine (mkPDFRAGSystem "." "./chroma_db" (Some demo_store) None)
            (demo_world key_set [] ∅ demo_adapter).

Definition cca_documents : list Document :=
  [ mkDocument "Causal component analysis studies X." "cca.pdf" 0;
    mkDocument "Further detail on X." "cca.pdf" 1 ].


Definition notes_pdf : PdfFile := mkPdfFile "notes.pdf" (Some ["Notes."]).

Definition no_key_machine : Machine :=
  mkMachine blank (demo_world ∅ [] ∅ demo_adapter).

(** [stored_machine] after [setup_qa_chain]. *)
Definition ready_machine : Machine := snd (setup_qa_chain stored_machine).

(** * Properties *)

Ltac run :=
  unfold bind, emit, get_self, get_world, set_self, set_world, ret, raise; simpl.

(** ** What the methods leave untouched *)

Lemma PyPDFLoader_load_self (f : PdfFile) (m : Machine) :
  self (snd (PyPDFLoader_load f m)) = self m.
Proof. unfold PyPDFLoader_load. run. by destruct (pdf_pages f). Qed.

Lemma load_each_self (pdf_files : list PdfFile) :
  forall (documents : list Document) (m : Machine),
    self (snd (load_each pdf_files documents m)) = self m.
Proof.
  induction pdf_files as [|f rest IH]; intros documents m; simpl; [done|].
  unfold bind. pose proof (PyPDFLoader_load_self f m) as Hf.
  destruct (PyPDFLoader_load f m) as [[docs|e] m1]; simpl in *; [|done].
  by rewrite IH.
Qed.

Lemma load_pdfs_self (m : Machine) : self (snd (load_pdfs m)) = self m.
Proof.
  unfold load_pdfs. run.
  destruct (pdf_glob (world m) (pdf_directory (self m))) as [|f rest] eqn:E; [done|].
  pose proof (load_each_self (f :: rest) []
    (mkMachine (self m) (log_event (world m) (EvGlob (pdf_directory (self m)))))) as H.
  by rewrite H.
Qed.

Lemma Chroma_from_documents_self (documents : list Document) (a : Adapter)
  (location : string) (m : Machine) :
  self (snd (Chroma_from_documents documents a location m)) = self m.
Proof.
  unfold Chroma_from_documents. run.
  by destruct (embed_batch a (map page_content documents)).
Qed.

Lemma Chroma_open_self (location : string) (a : Adapter) (m : Machine) :
  self (snd (Chroma_open location a m)) = self m.
Proof.
  unfold Chroma_open. run.
  destruct (chroma_db (world m) !! location) as [snap|]; [|done].
  by destruct (identity_matches snap a).
Qed.

Lemma create_vectorstore_qa_chain (documents : list Document) (m : Machine) :
  qa_chain (self (snd (create_vectorstore documents m))) = qa_chain (self m).
Proof.
  unfold create_vectorstore, set_vectorstore. run.
  match goal with
  | |- context [Chroma_from_documents ?d ?a ?l ?m0] =>
      pose proof (Chroma_from_documents_self d a l m0) as H;
      destruct (Chroma_from_documents d a l m0) as [[v|e] m1]
  end; simpl in *; by rewrite H.
Qed.

(** While the pipeline is being set up there is no chain. *)
Lemma initializing_not_ready (m : Machine) : initializing m -> ~ READY (self m).
Proof.
  unfold READY. intros H. cut (qa_chain (self m) = None).
  { intros ->. by intros [c Hc]. }
  induction H as [pd ps m|m _ IH|documents m _ IH|location a m _ IH|v m _ IH|m _ IH Hv].
  - unfold PDFRAGSystem_init. run.
    by destruct (negb (truthy (getenv (world m) "OPENAI_API_KEY"))).
  - by rewrite load_pdfs_self.
  - by rewrite create_vectorstore_qa_chain.
  - by rewrite Chroma_open_self.
  - done.
  - unfold setup_qa_chain. run. by rewrite Hv.
Qed.

(** ** The constructor *)

(** C10 (as amended).  The constructor fails with the [ValueError] above
    when [OPENAI_API_KEY] is unset or empty, and succeeds when it holds a
    non-empty value.  Either way it touches nothing outside the object: the
    world, trace included, is as before, and the object has neither a vector
    store nor a chain. *)
Theorem init_requires_api_key (pd ps : string) (m : Machine) :
  let key := environ (world m) !! "OPENAI_API_KEY" in
  let out := PDFRAGSystem_init pd ps m in
  world (snd out) = world m /\
  self (snd out) = mkPDFRAGSystem pd ps None None /\
  (key = None \/ key = Some "" ->
   fst out = Raise (ValueError
     "OPENAI_API_KEY environment variable not set. Please set it in .env file or environment.")) /\
  (forall v, key = Some v -> v <> "" -> fst out = Ok tt).
Proof.
  intros key out. subst key out. unfold PDFRAGSystem_init, getenv. run.
  destruct (environ (world m) !! "OPENAI_API_KEY") as [v|]; [destruct v as [|c v]|];
    simpl; repeat split; try done.
  - intros v0 H Hne. by simplify_eq.
  - intros [H|H]; done.
Qed.

(** ** Asking before the pipeline is ready *)

Lemma ask_question_without_chain (question : string) (m : Machine) :
  qa_chain (self m) = None ->
  ask_question question m =
    (Raise (ValueError "QA chain not initialized. Call setup_qa_chain first."), m).
Proof. unfold ask_question. run. intros ->. by destruct m. Qed.

Lemma not_ready_no_chain (s : PDFRAGSystem) : ~ READY s -> qa_chain s = None.
Proof.
  unfold READY. destruct (qa_chain s) as [chain|]; [|done].
  intros H. exfalso. apply H. by exists chain.
Qed.

(** C4.  Whatever the question, [ask_question] on a pipeline that is not
    [READY] raises the [ValueError] that stands for the design document's
    NotInitializedError, and the machine is left as it was: nothing was
    retrieved and the language model was not called, so there is no
    answer. *)
Theorem ask_before_ready (question : string) (m : Machine) :
  ~ READY (self m) ->
  ask_question question m =
    (Raise (ValueError "QA chain not initialized. Call setup_qa_chain first."), m).
Proof.
  intros H. by apply ask_question_without_chain, not_ready_no_chain.
Qed.

(** The same for every machine met during set-up. *)
Lemma ask_while_initializing (question : string) (m : Machine) :
  initializing m ->
  ask_question question m =
    (Raise (ValueError "QA chain not initialized. Call setup_qa_chain first."), m).
Proof.
  intros H. by apply ask_question_without_chain, not_ready_no_chain,
    initializing_not_ready.
Qed.

(** ** An empty corpus *)

(** C5.  When the directory holds no PDF file, [initialize] raises the
    [ValueError] of [load_pdfs] (the design document's CorpusEmptyError).
    Only the directory was listed: the object is unchanged, so no vector
    store was created and no chain set up, and nothing was persisted. *)
Theorem initialize_empty_corpus (m : Machine) :
  pdf_glob (world m) (pdf_directory (self m)) = [] ->
  let out := initialize m in
  fst out = Raise (ValueError ("No PDF files found in " +:+ pdf_directory (self m))) /\
  self (snd out) = self m /\
  chroma_db (world (snd out)) = chroma_db (world m) /\
  new_events m (snd out) = [EvGlob (pdf_directory (self m))] /\
  (~ READY (self m) -> ~ READY (self (snd out))).
Proof.
  intros H. unfold initialize, load_pdfs, new_events. run. rewrite H. simpl.
  repeat split; try done. by rewrite drop_app_length.
Qed.

(** A pipeline that is being set up stays so when [initialize] fails, at
    whichever step. *)
Lemma initialize_failed_not_ready (m m' : Machine) (e : exn) :
  initializing m -> initialize m = (Raise e, m') -> initializing m'.
Proof.
  intros Hm. unfold initialize, bind.
  pose proof (init_documents_read m Hm) as H1.
  destruct (load_pdfs m) as [[documents|e1] m1]; simpl in H1.
  - pose proof (init_index_built documents m1 H1) as H2.
    destruct (create_vectorstore documents m1) as [[[]|e2] m2] eqn:E2; simpl in H2.
    + intros H3. unfold setup_qa_chain in H3. revert H3. run.
      destruct (vectorstore (self m2)); intros H3; by simplify_eq.
    + intros H3. by simplify_eq.
  - intros H3. by simplify_eq.
Qed.

Lemma setup_qa_chain_without_store (m : Machine) :
  vectorstore (self m) = None ->
  setup_qa_chain m =
    (Raise (ValueError "Vector store not initialized. Call create_vectorstore first."), m).
Proof. unfold setup_qa_chain. run. intros ->. by destruct m. Qed.

(** ** Ranking and top-k *)

Lemma insert_by_score_length (x : scored) (l : list scored) :
  length (insert_by_score x l) = S (length l).
Proof.
  induction l as [|y l IH]; simpl; [done|].
  destruct (Qle_bool (snd y) (snd x)); simpl; by rewrite ?IH.
Qed.

Lemma rank_length (l : list scored) : length (rank l) = length l.
Proof.
  induction l as [|x l IH]; simpl; [done|].
  by rewrite insert_by_score_length, IH.
Qed.

Lemma insert_by_score_HdRel (y x : scored) (l : list scored) :
  score_ge y x -> HdRel score_ge y l -> HdRel score_ge y (insert_by_score x l).
Proof.
  intros Hyx Hl. destruct l as [|z l]; simpl; [by constructor|].
  destruct (Qle_bool (snd z) (snd x)); constructor; [done|].
  by inversion Hl.
Qed.

Lemma insert_by_score_sorted (x : scored) (l : list scored) :
  Sorted score_ge l -> Sorted score_ge (insert_by_score x l).
Proof.
  induction l as [|y l IH]; simpl; intros Hs.
  - by repeat constructor.
  - destruct (Qle_bool (snd y) (snd x)) eqn:E.
    + constructor; [done|]. constructor. by apply Qle_bool_iff.
    + inversion Hs as [|? ? Hl Hhd]; subst. constructor; [by apply IH|].
      apply insert_by_score_HdRel; [|done].
      unfold score_ge. apply Qlt_le_weak, Qnot_le_lt.
      intros Hle. apply Qle_bool_iff in Hle. congruence.
Qed.

Lemma rank_sorted (l : list scored) : Sorted score_ge (rank l).
Proof.
  induction l as [|x l IH]; simpl; [constructor|].
  by apply insert_by_score_sorted.
Qed.

Lemma Sorted_take {A : Type} (R : A -> A -> Prop) (l : list A) :
  forall k : nat, Sorted R l -> Sorted R (take k l).
Proof.
  induction l as [|x l IH]; intros [|k] Hs; simpl; try constructor.
  - apply IH. by inversion Hs.
  - inversion Hs as [|? ? _ Hhd]; subst.
    destruct l as [|y l], k as [|k]; simpl; constructor. by inversion Hhd.
Qed.

Lemma query_length_k (idx : Snapshot) (v : vector) (k : nat) :
  length (query idx v k) <= k.
Proof. unfold query. rewrite length_take. lia. Qed.

Lemma query_length_records (idx : Snapshot) (v : vector) (k : nat) :
  length (query idx v k) <= length (snap_records idx).
Proof. unfold query. rewrite length_take, rank_length, length_map. lia. Qed.

Lemma query_sorted (idx : Snapshot) (v : vector) (k : nat) :
  Sorted score_ge (query idx v k).
Proof. apply Sorted_take, rank_sorted. Qed.

Lemma setup_qa_chain_with_store (vs : Chroma) (m : Machine) :
  vectorstore (self m) = Some vs ->
  setup_qa_chain m =
    (Ok tt,
     mkMachine
       (mkPDFRAGSystem (pdf_directory (self m)) (persist_directory (self m)) (Some vs)
          (Some (mkRetrievalQA (mkChatOpenAI "gpt-3.5-turbo" 0) "stuff"
                   (mkRetriever vs 4) true
                   (mkPromptTemplate ["context"; "question"] qa_template))))
       (world m)).
Proof.
  intros H. unfold setup_qa_chain, set_qa_chain. run.
  rewrite H. simpl. by rewrite H.
Qed.

(** C1.  The retrieval operation either fails in the adapter or returns
    scored records that are at most [k], at most as many as the index holds,
    and in non-increasing order of score; and the retriever the pipeline
    builds over any vector store has [k = 4]. *)
Theorem retrieval_bounded :
  (forall (r : Retriever) (text : string) (m : Machine),
     match fst (retrieve r text m) with
     | Ok hits =>
         length hits <= search_k r /\
         length hits <= length (snap_records (index (ret_vectorstore r))) /\
         Sorted score_ge hits
     | Raise e => e = EmbeddingError
     end) /\
  (forall (vs : Chroma) (m : Machine),
     vectorstore (self m) = Some vs ->
     exists chain : RetrievalQA,
       qa_chain (self (snd (setup_qa_chain m))) = Some chain /\
       ret_vectorstore (retriever chain) = vs /\
       search_k (retriever chain) = 4).
Proof.
  split.
  - intros r text m. unfold retrieve. run.
    destruct (embed (embedding_function (ret_vectorstore r)) text) as [v|]; simpl; [|done].
    auto using query_length_k, query_length_records, query_sorted.
  - intros vs m H. rewrite (setup_qa_chain_with_store vs m H). simpl. eauto.
Qed.

(** Once [setup_qa_chain] has run over a vector store the pipeline is
    ready. *)
Lemma setup_qa_chain_ready (vs : Chroma) (m : Machine) :
  vectorstore (self m) = Some vs -> READY (self (snd (setup_qa_chain m))).
Proof.
  intros H. rewrite (setup_qa_chain_with_store vs m H). simpl.
  unfold READY. simpl. eauto.
Qed.

(** ** Building and opening a snapshot *)

(** What a successful [create_vectorstore] did: every chunk was embedded,
    the snapshot is on disk at [persist_directory], and the object holds the
    same index in memory. *)
Lemma create_vectorstore_ok (documents : list Document) (m m1 : Machine) :
  create_vectorstore documents m = (Ok tt, m1) ->
  let a := OpenAIEmbeddings (world m) in
  let chunks := split_documents (mkSplitter 1000 200) documents in
  exists vectors : list vector,
    embed_batch a (map page_content chunks) = Some vectors /\
    vectorstore (self m1) = Some (mkChroma a (built_snapshot a chunks vectors)) /\
    persist_directory (self m1) = persist_directory (self m) /\
    pdf_directory (self m1) = pdf_directory (self m) /\
    OpenAIEmbeddings (world m1) = a /\
    chroma_db (world m1) =
      <[persist_directory (self m) := built_snapshot a chunks vectors]>
        (chroma_db (world m)).
Proof.
  unfold create_vectorstore, Chroma_from_documents, set_vectorstore. run.
  destruct (embed_batch _ _) as [vectors|] eqn:E; simpl; intros H; [|done].
  exists vectors. by simplify_eq.
Qed.

Lemma load_existing_found (snap : Snapshot) (m : Machine) :
  chroma_db (world m) !! persist_directory (self m) = Some snap ->
  identity_matches snap (OpenAIEmbeddings (world m)) = true ->
  exists m2 : Machine,
    load_existing m = (Ok tt, m2) /\
    vectorstore (self m2) = Some (mkChroma (OpenAIEmbeddings (world m)) snap).
Proof.
  intros Hdb Hid. unfold load_existing, Chroma_open, set_vectorstore,
    setup_qa_chain, set_qa_chain. run.
  rewrite Hdb, Hid. simpl. eauto.
Qed.

Lemma load_existing_missing (m : Machine) :
  chroma_db (world m) !! persist_directory (self m) = None ->
  load_existing m =
    (Raise SnapshotNotFoundError,
     mkMachine (self m) (log_event (world m) (EvOpen (persist_directory (self m))))).
Proof.
  intros Hdb. unfold load_existing, Chroma_open. run. by rewrite Hdb.
Qed.

Lemma load_existing_mismatch (snap : Snapshot) (m : Machine) :
  chroma_db (world m) !! persist_directory (self m) = Some snap ->
  identity_matches snap (OpenAIEmbeddings (world m)) = false ->
  load_existing m =
    (Raise SnapshotCorruptError,
     mkMachine (self m) (log_event (world m) (EvOpen (persist_directory (self m))))).
Proof.
  intros Hdb Hid. unfold load_existing, Chroma_open. run. by rewrite Hdb, Hid.
Qed.

Lemma identity_matches_false (snap : Snapshot) (a : Adapter) :
  snap_dim snap <> ad_dim a \/ snap_tag snap <> ad_tag a ->
  identity_matches snap a = false.
Proof.
  unfold identity_matches. intros [H|H].
  - by rewrite (bool_decide_eq_false_2 _ H).
  - rewrite (bool_decide_eq_false_2 _ H). apply andb_false_r.
Qed.

Lemma identity_matches_built (a : Adapter) (chunks : list Document)
  (vectors : list vector) :
  identity_matches (built_snapshot a chunks vectors) a = true.
Proof.
  unfold identity_matches. simpl. by rewrite !bool_decide_eq_true_2.
Qed.

(** C7.  After a successful build, a later run that opens the index at the
    same location with the same adapter gets an index that answers every
    query, for every vector and every [k], exactly as the index just built
    in memory does. *)
Theorem build_then_load (documents : list Document) (m m1 : Machine) :
  create_vectorstore documents m = (Ok tt, m1) ->
  exists (built loaded : Chroma) (m2 : Machine),
    vectorstore (self m1) = Some built /\
    load_existing (restart m1) = (Ok tt, m2) /\
    vectorstore (self m2) = Some loaded /\
    forall (v : vector) (k : nat),
      query (index loaded) v k = query (index built) v k.
Proof.
  intros Hbuild.
  destruct (create_vectorstore_ok documents m m1 Hbuild)
    as (vectors & _ & Hvs & Hdir & _ & Ha & Hdb).
  destruct (load_existing_found
              (built_snapshot (OpenAIEmbeddings (world m))
                 (split_documents (mkSplitter 1000 200) documents) vectors)
              (restart m1)) as (m2 & Hload & Hvs2).
  - simpl. rewrite Hdir, Hdb. apply lookup_insert_eq.
  - simpl. rewrite Ha. apply identity_matches_built.
  - eexists _, _, m2. split; [exact Hvs|]. split; [exact Hload|].
    split; [exact Hvs2|]. done.
Qed.

(** ** The chunks handed to the index *)

Lemma create_vectorstore_first_event (documents : list Document) (m : Machine) :
  head (new_events m (snd (create_vectorstore documents m))) =
    Some (EvFromDocuments (split_documents (mkSplitter 1000 200) documents)).
Proof.
  unfold create_vectorstore, Chroma_from_documents, set_vectorstore, new_events. run.
  destruct (embed_batch _ _) as [vectors|]; simpl.
  - by rewrite <- app_assoc, drop_app_length.
  - by rewrite drop_app_length.
Qed.

(** ** The prompt *)

Lemma format_qa_template (context question : string) :
  format (mkPromptTemplate ["context"; "question"] qa_template)
         [("context", context); ("question", question)] =
  Ok ("Use the following pieces of context to answer the question at the end. " +:+ nl +:+
      "If you don't know the answer, just say that you don't know, don't try to make up an answer." +:+ nl +:+
      nl +:+
      "Context: " +:+ context +:+ nl +:+
      nl +:+
      "Question: " +:+ question +:+ nl +:+
      nl +:+
      "Answer: ").
Proof. reflexivity. Qed.

Lemma stuff_passages (hits : list scored) :
  stuff (map (fun h => passage (fst h)) hits) =
  String.concat document_separator (map (fun h => rec_text (fst h)) hits).
Proof. unfold stuff. by rewrite map_map. Qed.

(** C9.  On a pipeline made ready by [setup_qa_chain], a question whose
    embedding succeeds leads to exactly one call of the language model.  It
    is made with temperature 0, and its prompt is the fixed template with
    the texts of all retrieved passages, in the order of the retriever, in
    the place of the context and the question in its own place.  The
    template tells the model to use the context to answer and to say that it
    does not know when it does not. *)
Theorem single_prompt (vs : Chroma) (question : string) (v : vector) (m : Machine) :
  vectorstore (self m) = Some vs ->
  embed (embedding_function vs) question = Some v ->
  let ready := snd (setup_qa_chain m) in
  let passages := map (fun hit => rec_text (fst hit)) (query (index vs) v 4) in
  new_events ready (snd (ask_question question ready)) =
    [EvEmbedQuery question;
     EvGenerate (mkChatOpenAI "gpt-3.5-turbo" 0)
       ("Use the following pieces of context to answer the question at the end. " +:+ nl +:+
        "If you don't know the answer, just say that you don't know, don't try to make up an answer." +:+ nl +:+
        nl +:+
        "Context: " +:+ String.concat document_separator passages +:+ nl +:+
        nl +:+
        "Question: " +:+ question +:+ nl +:+
        nl +:+
        "Answer: ")].
Proof.
  intros Hvs Hv ready passages. subst ready passages.
  rewrite (setup_qa_chain_with_store vs m Hvs).
  unfold ask_question, RetrievalQA_call, retrieve, new_events, snd at 1.
  unfold bind at 1, get_self at 1; cbn [self qa_chain].
  unfold bind at 1, bind at 1, emit at 1, bind at 1, get_world, set_world.
  cbn [self world qa_chain retriever ret_vectorstore search_k qa_prompt qa_llm
       return_source_documents fst snd trace log_event].
  rewrite Hv. unfold ret at 1.
  rewrite format_qa_template, stuff_passages.
  unfold bind, emit, bind, get_world, set_world, raise, ret.
  cbn [self world fst snd trace log_event generate].
  set (prompt := (_ +:+ _)).
  destruct (generate (world m) _ prompt) as [answer|];
    [destruct (String.eqb answer "")|];
    cbn [snd world]; unfold log_event; cbn [trace];
    by rewrite <- app_assoc, drop_app_length.
Qed.

(** ** Reading the documents *)







(** ** The outcomes of [initialize] *)

Lemma load_each_raise (pdf_files : list PdfFile) :
  forall (documents : list Document) (m m' : Machine) (e : exn),
    load_each pdf_files documents m = (Raise e, m') -> e = UnreadableDocumentError.
Proof.
  induction pdf_files as [|f rest IH]; intros documents m m' e; simpl.
  - unfold ret. intros H. by simplify_eq.
  - unfold bind at 1. unfold PyPDFLoader_load. run.
    destruct (pdf_pages f) as [pages|]; simpl.
    + apply IH.
    + intros H. by simplify_eq.
Qed.

Lemma load_pdfs_raise (m m' : Machine) (e : exn) :
  load_pdfs m = (Raise e, m') ->
  e = ValueError ("No PDF files found in " +:+ pdf_directory (self m)) \/
  e = UnreadableDocumentError.
Proof.
  unfold load_pdfs. run.
  destruct (pdf_glob (world m) (pdf_directory (self m))) as [|f rest].
  - intros H. left. by simplify_eq.
  - intros H. right. by apply load_each_raise in H.
Qed.

Lemma create_vectorstore_raise (documents : list Document) (m m' : Machine) (e : exn) :
  create_vectorstore documents m = (Raise e, m') ->
  e = EmbeddingError /\ self m' = self m.
Proof.
  unfold create_vectorstore, Chroma_from_documents, set_vectorstore. run.
  destruct (embed_batch _ _) as [vectors|]; simpl; intros H; by simplify_eq.
Qed.

(** The three ways [initialize] can fail, each leaving the object as it
    was. *)
Lemma initialize_raise (m m' : Machine) (e : exn) :
  initialize m = (Raise e, m') ->
  self m' = self m /\
  (e = ValueError ("No PDF files found in " +:+ pdf_directory (self m)) \/
   e = UnreadableDocumentError \/
   e = EmbeddingError).
Proof.
  unfold initialize, bind.
  pose proof (load_pdfs_self m) as Hself.
  destruct (load_pdfs m) as [[documents|e1] m1] eqn:E1; simpl in Hself.
  - destruct (create_vectorstore documents m1) as [[[]|e2] m2] eqn:E2.
    + destruct (create_vectorstore_ok documents m1 m2 E2) as (vectors & _ & Hvs & _).
      rewrite (setup_qa_chain_with_store _ m2 Hvs). intros H. by simplify_eq.
    + intros H. simplify_eq.
      destruct (create_vectorstore_raise documents m1 m' e E2) as [-> Hs].
      split; [congruence|auto].
  - intros H. simplify_eq. split; [done|].
    destruct (load_pdfs_raise m m' e E1) as [->| ->]; auto.
Qed.

(** What a successful [initialize] leaves: a vector store and a chain that
    retrieves from it. *)
Lemma initialize_ok (m m' : Machine) :
  initialize m = (Ok tt, m') ->
  exists vs : Chroma,
    vectorstore (self m') = Some vs /\
    qa_chain (self m') =
      Some (mkRetrievalQA (mkChatOpenAI "gpt-3.5-turbo" 0) "stuff" (mkRetriever vs 4)
              true (mkPromptTemplate ["context"; "question"] qa_template)).
Proof.
  unfold initialize, bind.
  destruct (load_pdfs m) as [[documents|e1] m1] eqn:E1; [|intros H; by simplify_eq].
  destruct (create_vectorstore documents m1) as [[[]|e2] m2] eqn:E2;
    [|intros H; by simplify_eq].
  destruct (create_vectorstore_ok documents m1 m2 E2) as (vectors & _ & Hvs & _).
  rewrite (setup_qa_chain_with_store _ m2 Hvs). intros H. simplify_eq. simpl. eauto.
Qed.

(** X4.  On a pipeline that is not ready, [initialize] returns normally
    exactly when it leaves the pipeline ready; and then the chain retrieves,
    with [k = 4], from the vector store the object now holds. *)
Theorem initialize_ready_iff_ok (m : Machine) :
  ~ READY (self m) ->
  (fst (initialize m) = Ok tt <-> READY (self (snd (initialize m)))) /\
  (fst (initialize m) = Ok tt ->
   exists (vs : Chroma) (chain : RetrievalQA),
     vectorstore (self (snd (initialize m))) = Some vs /\
     qa_chain (self (snd (initialize m))) = Some chain /\
     retriever chain = mkRetriever vs 4).
Proof.
  intros Hnot. destruct (initialize m) as [[[]|e] m'] eqn:E; simpl.
  - destruct (initialize_ok m m' E) as (vs & Hvs & Hchain).
    split; [split; [|done]|].
    + intros _. unfold READY. rewrite Hchain. eauto.
    + intros _. exists vs. eexists. rewrite Hvs, Hchain. eauto.
  - destruct (initialize_raise m m' e E) as [Hself _].
    split; [split|]; [done| |done].
    intros Hready. exfalso. apply Hnot. by rewrite <- Hself.
Qed.

(** ** [rag_system.main] *)

Lemma init_without_key (pd ps : string) (m : Machine) :
  truthy (getenv (world m) "OPENAI_API_KEY") = false ->
  PDFRAGSystem_init pd ps m =
    (Raise (ValueError
       "OPENAI_API_KEY environment variable not set. Please set it in .env file or environment."),
     mkMachine (mkPDFRAGSystem pd ps None None) (world m)).
Proof. intros H. unfold PDFRAGSystem_init. run. by rewrite H. Qed.

Lemma init_with_key (pd ps : string) (m : Machine) :
  truthy (getenv (world m) "OPENAI_API_KEY") = true ->
  PDFRAGSystem_init pd ps m =
    (Ok tt, mkMachine (mkPDFRAGSystem pd ps None None) (world m)).
Proof. intros H. unfold PDFRAGSystem_init. run. by rewrite H. Qed.

(** X5.  Without a usable [OPENAI_API_KEY] the program fails with the
    constructor's [ValueError] whatever its arguments, also those that would
    only print the usage text, and before anything outside the process is
    touched. *)
Theorem main_needs_api_key (argv : list string) (m : Machine) :
  truthy (getenv (world m) "OPENAI_API_KEY") = false ->
  fst (main argv m) =
    Escaped (Pipeline (ValueError
      "OPENAI_API_KEY environment variable not set. Please set it in .env file or environment.")) /\
  world (snd (main argv m)) = world m.
Proof.
  intros H. unfold main, dbind, lift. by rewrite (init_without_key _ _ m H).
Qed.

(** X6.  With the key set, a command line that is neither [init] nor a
    [query] with a question touches nothing: no directory is listed and no
    index opened.  It returns after the usage text, except for [query]
    without a question, which exits with status 1. *)
Theorem main_usage_touches_nothing (argv : list string) (m : Machine) :
  truthy (getenv (world m) "OPENAI_API_KEY") = true ->
  argv !! 1 <> Some "init" ->
  (argv !! 1 = Some "query" -> argv !! 2 = None) ->
  world (snd (main argv m)) = world m /\
  fst (main argv m) =
    (if bool_decide (argv !! 1 = Some "query") then Escaped (SystemExit 1)
     else Returned tt).
Proof.
  intros Hkey Hinit Hquery. unfold main, dbind, lift.
  rewrite (init_with_key _ _ m Hkey).
  rewrite (bool_decide_eq_false_2 _ Hinit).
  destruct (bool_decide (argv !! 1 = Some "query")) eqn:Hq.
  - apply bool_decide_eq_true_1 in Hq. by rewrite (Hquery Hq).
  - done.
Qed.

(** ** The question loop of the demo *)

Lemma retrieve_trace (r : Retriever) (text : string) (m : Machine) :
  self (snd (retrieve r text m)) = self m /\
  world (snd (retrieve r text m)) = log_event (world m) (EvEmbedQuery text).
Proof.
  unfold retrieve. run.
  by destruct (embed (embedding_function (ret_vectorstore r)) text).
Qed.

(** A call of the chain embeds the question first, calls the language model
    at most once, and does nothing else. *)
Lemma RetrievalQA_call_trace (chain : RetrievalQA) (question : string) (m : Machine) :
  self (snd (RetrievalQA_call chain question m)) = self m /\
  exists rest : list Event,
    trace (world (snd (RetrievalQA_call chain question m))) =
      trace (world m) ++ EvEmbedQuery question :: rest /\
    asked rest = [] /\
    Forall (fun e => is_setup_event e = false) rest.
Proof.
  unfold RetrievalQA_call. unfold bind.
  destruct (retrieve_trace (retriever chain) question m) as [Hs Hw].
  destruct (retrieve (retriever chain) question m) as [[hits|e] m1]; simpl in Hs, Hw.
  - destruct (format _ _) as [prompt|e].
    + run. rewrite Hw. simpl.
      assert (Hrest : exists rest : list Event,
                (trace (world m) ++ [EvEmbedQuery question]) ++
                  [EvGenerate (qa_llm chain) prompt] =
                trace (world m) ++ EvEmbedQuery question :: rest /\
                asked rest = [] /\ Forall (fun e => is_setup_event e = false) rest).
      { exists [EvGenerate (qa_llm chain) prompt]. rewrite <- app_assoc.
        repeat split. by repeat constructor. }
      destruct (generate (world m) (qa_llm chain) prompt) as [answer|];
        [destruct (String.eqb answer "")|]; simpl; (split; [exact Hs|exact Hrest]).
    + unfold raise. simpl. rewrite Hs, Hw. simpl. split; [done|].
      exists []. by repeat split.
  - simpl. rewrite Hs, Hw. simpl. split; [done|]. exists []. by repeat split.
Qed.

Lemma ask_question_self (question : string) (m : Machine) :
  self (snd (ask_question question m)) = self m.
Proof.
  unfold ask_question. unfold bind, get_self. simpl.
  destruct (qa_chain (self m)) as [chain|]; [|done].
  apply RetrievalQA_call_trace.
Qed.

Lemma ask_question_trace (chain : RetrievalQA) (question : string) (m : Machine) :
  qa_chain (self m) = Some chain ->
  exists rest : list Event,
    trace (world (snd (ask_question question m))) =
      trace (world m) ++ EvEmbedQuery question :: rest /\
    asked rest = [] /\
    Forall (fun e => is_setup_event e = false) rest.
Proof.
  intros H. unfold ask_question. unfold bind, get_self. simpl. rewrite H.
  apply RetrievalQA_call_trace.
Qed.

(** One pass through the [try] of the loop: it never lets an exception of
    the pipeline out. *)
Lemma guarded_ask (question : string) (m : Machine) :
  try_except (dbind (lift (ask_question question)) (fun _ => dret tt))
             is_Exception (fun _ => dret tt) m =
    (Returned tt, snd (ask_question question m)).
Proof.
  unfold try_except, dbind, lift, dret.
  by destruct (ask_question question m) as [[r|e] m1].
Qed.

Lemma question_loop_outcome (stdin : list string) :
  forall m : Machine,
    fst (question_loop stdin m) =
      (if existsb (fun line => is_quit (strip line)) stdin then Returned tt
       else Escaped EOFError).
Proof.
  induction stdin as [|line rest IH]; intros m; simpl; [done|].
  destruct (is_quit (strip line)); simpl; [done|].
  destruct (String.eqb (strip line) ""); [apply IH|].
  unfold dbind at 1. rewrite guarded_ask. apply IH.
Qed.

(** X7.  For input lines of ASCII text, the question loop ends normally
    exactly when some line is a quit word once stripped and lowered; when
    the input runs out first, the [EOFError] of [input()] escapes.  No
    failure of a question ends the loop. *)
Theorem question_loop_ends (stdin : list string) (m : Machine) :
  Forall (fun line => is_ascii_text line = true) stdin ->
  fst (question_loop stdin m) =
    (if existsb (fun line => is_quit (strip line)) stdin then Returned tt
     else Escaped EOFError).
Proof. intros _. apply question_loop_outcome. Qed.

Lemma question_loop_trace (stdin : list string) :
  forall m : Machine,
    is_Some (qa_chain (self m)) ->
    exists events : list Event,
      trace (world (snd (question_loop stdin m))) = trace (world m) ++ events /\
      asked events = questions_before_quit stdin.
Proof.
  induction stdin as [|line rest IH]; intros m Hready; simpl.
  - exists []. by rewrite app_nil_r.
  - destruct (is_quit (strip line)); simpl.
    { exists []. by rewrite app_nil_r. }
    destruct (String.eqb (strip line) ""); [by apply IH|].
    unfold dbind at 1. rewrite guarded_ask.
    destruct Hready as [chain Hchain].
    destruct (ask_question_trace chain (strip line) m Hchain) as (r1 & Ht1 & Ha1 & _).
    destruct (IH (snd (ask_question (strip line) m))) as (evs & Ht & Ha).
    { rewrite ask_question_self. eauto. }
    exists (EvEmbedQuery (strip line) :: r1 ++ evs). split.
    + rewrite Ht, Ht1. by rewrite <- app_assoc.
    + simpl. unfold asked in *. rewrite omap_app, Ha1, Ha. done.
Qed.

(** X8.  For input lines of ASCII text and a ready pipeline, the questions
    that reach the embedding adapter are, in order, the stripped lines that
    come before the first quit word and are not blank: a blank line is never
    asked, a line is asked once even when the question fails, and nothing
    after the quit word is asked. *)
Theorem question_loop_asks (stdin : list string) (m : Machine) :
  Forall (fun line => is_ascii_text line = true) stdin ->
  READY (self m) ->
  asked (new_events m (snd (question_loop stdin m))) = questions_before_quit stdin.
Proof.
  intros _ Hready. destruct (question_loop_trace stdin m Hready) as (evs & Ht & Ha).
  unfold new_events. by rewrite Ht, drop_app_length.
Qed.

(** ** The set-up in the drivers *)

Lemma load_existing_ok_ready (m m' : Machine) :
  load_existing m = (Ok tt, m') -> READY (self m').
Proof.
  unfold load_existing, Chroma_open, set_vectorstore, setup_qa_chain, set_qa_chain.
  run. destruct (chroma_db (world m) !! persist_directory (self m)) as [snap|];
    [|intros H; by simplify_eq].
  destruct (identity_matches snap (OpenAIEmbeddings (world m))); simpl;
    intros H; simplify_eq. unfold READY. simpl. eauto.
Qed.

Lemma load_existing_raise_self (m m' : Machine) (e : exn) :
  load_existing m = (Raise e, m') -> self m' = self m.
Proof.
  unfold load_existing, Chroma_open, set_vectorstore, setup_qa_chain, set_qa_chain.
  run. destruct (chroma_db (world m) !! persist_directory (self m)) as [snap|];
    [|intros H; by simplify_eq].
  destruct (identity_matches snap (OpenAIEmbeddings (world m))); simpl;
    intros H; by simplify_eq.
Qed.

Lemma initialize_ok_ready (m m' : Machine) :
  initialize m = (Ok tt, m') -> READY (self m').
Proof.
  intros H. destruct (initialize_ok m m' H) as (vs & _ & Hchain).
  unfold READY. rewrite Hchain. eauto.
Qed.

(** X9.  The same missing key is treated differently by two drivers: in
    the demo the constructor stands outside every [try], so its
    [ValueError] escapes whatever the input; in the web page it stands
    inside, and [initialize_rag_system] returns [None]. *)
Theorem missing_key_in_drivers (stdin : list string) (m : Machine) :
  truthy (getenv (world m) "OPENAI_API_KEY") = false ->
  fst (demo_main stdin m) =
    Escaped (Pipeline (ValueError
      "OPENAI_API_KEY environment variable not set. Please set it in .env file or environment.")) /\
  fst (initialize_rag_system m) = Returned None.
Proof.
  intros H. unfold demo_main, demo_setup, initialize_rag_system, try_except, dbind, lift.
  by rewrite (init_without_key _ _ m H).
Qed.

(** X10.  The set-up of the demo never lets a [ValueError] of
    [initialize] nor any exception of the loading block out, and it reports
    success exactly when it leaves the pipeline ready: the question loop is
    only ever entered on a ready pipeline. *)
Theorem demo_setup_ready (m : Machine) (ready : bool) :
  fst (demo_setup m) = Returned ready ->
  (ready = true <-> READY (self (snd (demo_setup m)))).
Proof.
  unfold demo_setup, try_except, dbind, lift, dret, get_world.
  destruct (PDFRAGSystem_init "." "./chroma_db" m) as [[[]|e0] m0] eqn:E0;
    [|intros H; by simplify_eq].
  assert (Hnot : ~ READY (self m0)).
  { apply (initializing_not_ready m0).
    pose proof (init_constructed "." "./chroma_db" m) as Hi. by rewrite E0 in Hi. }
  simpl. destruct (path_exists (world m0) "./chroma_db"); simpl.
  - destruct (load_existing m0) as [[[]|e] m1] eqn:E1; simpl; intros H; simplify_eq.
    + split; [intros _|done]. by apply (load_existing_ok_ready m0).
    + split; [done|]. intros Hr. exfalso. apply Hnot.
      by rewrite <- (load_existing_raise_self m0 m1 e E1).
  - destruct (initialize m0) as [[[]|e] m1] eqn:E1; simpl.
    + intros H. simplify_eq. split; [intros _|done]. by apply (initialize_ok_ready m0).
    + destruct (initialize_raise m0 m1 e E1) as [Hself _].
      destruct e; simpl; intros H; simplify_eq.
      split; [done|]. intros Hr. exfalso. apply Hnot. by rewrite <- Hself.
Qed.

(** ** The web page *)

Lemma initialize_rag_system_returns (m : Machine) :
  exists r : option PDFRAGSystem,
    fst (initialize_rag_system m) = Returned r /\
    forall rag : PDFRAGSystem, r = Some rag -> READY rag.
Proof.
  unfold initialize_rag_system, try_except, dbind, lift, dret, get_world, get_self.
  destruct (PDFRAGSystem_init "." "./chroma_db" m) as [[[]|e0] m0]; simpl;
    [|exists None; by split].
  destruct (path_exists (world m0) "./chroma_db"); simpl.
  - destruct (load_existing m0) as [[[]|e] m1] eqn:E1; simpl.
    + eexists. split; [done|]. intros rag H. simplify_eq.
      by apply (load_existing_ok_ready m0).
    + exists None. by split.
  - destruct (initialize m0) as [[[]|e] m1] eqn:E1; simpl.
    + eexists. split; [done|]. intros rag H. simplify_eq.
      by apply (initialize_ok_ready m0).
    + exists None. by split.
Qed.

(** X11.  [initialize_rag_system] never raises: whatever fails in the
    constructor, in the first-time set-up or in the loading block, it
    returns [None]; and an object it returns is ready to answer. *)
Theorem initialize_rag_system_total (m : Machine) :
  exists r : option PDFRAGSystem,
    fst (initialize_rag_system m) = Returned r /\
    forall rag : PDFRAGSystem, r = Some rag -> READY rag.
Proof. apply initialize_rag_system_returns. Qed.

Lemma ensure_initialized_ok (s : Session) (m : Machine) :
  session_ok s ->
  exists s2 : Session,
    fst (ensure_initialized s m) = Returned s2 /\
    session_ok s2 /\
    st_last_question s2 = st_last_question s.
Proof.
  intros Hok. unfold ensure_initialized.
  destruct (st_initialized s) eqn:E.
  - exists s. split; [done|]. by split.
  - unfold dbind.
    destruct (initialize_rag_system_returns m) as (r & Hr & Hrag).
    destruct (initialize_rag_system m) as [o m1]. simpl in Hr. subst o. simpl.
    eexists. split; [done|]. split; [|done].
    destruct r as [rag|]; split; simpl; done.
Qed.

Lemma shown_ask (question : string) (m : Machine) :
  exists shown : Rendered,
    try_except (dbind (lift (ask_question question)) (fun r => dret (ShowAnswer r)))
               is_Exception (fun e => dret (ShowError e)) m =
      (Returned shown, snd (ask_question question m)).
Proof.
  unfold try_except, dbind, lift, dret.
  destruct (ask_question question m) as [[r|e] m1]; simpl; eauto.
Qed.

Lemma script_run_ok (button : bool) (question : string) (s : Session) (m : Machine) :
  session_ok s ->
  exists out : Rendered * Session,
    fst (script_run button question s m) = Returned out /\ session_ok (snd out).
Proof.
  intros Hs. unfold script_run.
  destruct (button || _); [|by exists (ShowNothing, s)].
  destruct (nonempty question); [|by exists (ShowWarning, s)].
  unfold dbind at 1.
  destruct (ensure_initialized_ok
              (mkSession (st_rag_system s) (st_initialized s) (Some question)) m)
    as (s2 & Hs2 & Hok2 & _); [exact Hs|].
  destruct (ensure_initialized _ m) as [o m1]. simpl in Hs2. subst o.
  destruct (st_rag_system s2) as [rag|] eqn:Erag; [|by exists (ShowUnavailable, s2)].
  unfold dbind at 1. unfold lift at 1, set_self. cbv beta iota.
  unfold dbind at 1.
  destruct (shown_ask question (mkMachine rag (world m1))) as (shown & ->).
  unfold dbind, lift, get_self, dret. cbv beta iota.
  eexists. split; [done|]. simpl.
  rewrite ask_question_self. simpl.
  destruct Hok2 as [Hinit Hready]. split; simpl.
  - rewrite Hinit. split; eauto.
  - intros rag' H. simplify_eq. by apply Hready.
Qed.

(** X12.  Through any sequence of runs of the page, starting from a new
    session, the script never raises, the session is marked initialized
    exactly when it holds a pipeline object, and an object it holds is
    ready. *)
Theorem session_stays_ok (inputs : list (bool * string)) :
  forall m : Machine,
    exists s : Session,
      fst (script_runs inputs new_session m) = Returned s /\ session_ok s.
Proof.
  assert (Hnew : session_ok new_session).
  { split; simpl; [|done]. split; [done|]. by intros [? ?]. }
  revert Hnew. generalize new_session.
  induction inputs as [|[button question] rest IH]; intros s Hs m; simpl.
  - by exists s.
  - unfold dbind.
    destruct (script_run_ok button question s m Hs) as (out & Hout & Hok).
    destruct (script_run button question s m) as [o m1]. simpl in Hout. subst o.
    by apply IH.
Qed.

Lemma ask_question_events (question : string) (m : Machine) :
  exists events : list Event,
    trace (world (snd (ask_question question m))) = trace (world m) ++ events /\
    Forall (fun e => is_setup_event e = false) events.
Proof.
  destruct (qa_chain (self m)) as [chain|] eqn:E.
  - destruct (ask_question_trace chain question m E) as (rest & Ht & _ & Hrest).
    exists (EvEmbedQuery question :: rest). split; [done|]. by constructor.
  - rewrite ask_question_without_chain by done. exists []. simpl.
    by rewrite app_nil_r.
Qed.

(** X13.  Once the session is marked initialized a run of the page does no
    set-up again: whatever the input, it neither lists the directory, reads
    a PDF, builds or persists an index, nor opens one. *)
Theorem initialized_session_no_setup (button : bool) (question : string)
  (s : Session) (m : Machine) :
  st_initialized s = true ->
  Forall (fun e => is_setup_event e = false)
         (new_events m (snd (script_run button question s m))).
Proof.
  intros Hinit. unfold new_events, script_run.
  destruct (button || _); [|simpl; by rewrite drop_all].
  destruct (nonempty question); [|simpl; by rewrite drop_all].
  unfold dbind at 1. unfold ensure_initialized. simpl. rewrite Hinit.
  unfold dret at 1. simpl.
  destruct (st_rag_system s) as [rag|]; [|simpl; by rewrite drop_all].
  unfold dbind at 1. unfold lift at 1, set_self. cbv beta iota.
  unfold dbind at 1.
  destruct (shown_ask question (mkMachine rag (world m))) as (shown & ->).
  unfold dbind, lift, get_self, dret. cbv beta iota. simpl.
  destruct (ask_question_events question (mkMachine rag (world m))) as (evs & Ht & Hevs).
  simpl in Ht. by rewrite Ht, drop_app_length.
Qed.

(** ** The loading test *)







(** ** The test suite *)



End Pipeline.

(** * The statements on concrete machines *)

Example query_top4_stable :
  map (fun hit => rec_id (fst hit)) (query dot demo_index [1%Q; 0%Q] 4) = [4; 0; 2; 3].
Proof. reflexivity. Qed.

Example query_small_index :
  map (fun hit => rec_id (fst hit)) (query dot demo_index [0%Q; 1%Q] 9) = [1; 2; 0; 3; 4].
Proof. reflexivity. Qed.

Example load_pdfs_two_pages :
  fst (load_pdfs (demo_machine [cca_pdf] ∅ demo_adapter)) = Ok cca_documents.
Proof. reflexivity. Qed.

Example format_missing_field :
  format (mkPromptTemplate ["context"; "question"] qa_template)
         [("context", "c")] = Raise (KeyError "question").
Proof. reflexivity. Qed.

Example init_then_query_answers :
  let m1 := snd (main_init whole_page (demo_machine [cca_pdf] ∅ demo_adapter)) in
  fst (main_query dot blank_line "What is causal component analysis?" (restart m1)) =
    Ok (mkQAResult "What is causal component analysis?" "I don't know." cca_documents).
Proof. vm_compute. reflexivity. Qed.

(** The key is in the environment, with the empty string as its value, and
    the constructor does not succeed. *)
Lemma init_key_set_but_empty :
  let m := mkMachine blank (demo_world key_empty [] ∅ demo_adapter) in
  is_Some (environ (world m) !! "OPENAI_API_KEY") /\
  fst (PDFRAGSystem_init "." "./chroma_db" m) <> Ok tt.
Proof.
  split.
  - exists "". reflexivity.
  - vm_compute. discriminate.
Qed.

Lemma init_requires_api_key_witness :
  fst (PDFRAGSystem_init "." "./chroma_db" (demo_machine [] ∅ demo_adapter)) = Ok tt /\
  fst (PDFRAGSystem_init "." "./chroma_db"
         (mkMachine blank (demo_world ∅ [] ∅ demo_adapter))) =
    Raise (ValueError
      "OPENAI_API_KEY environment variable not set. Please set it in .env file or environment.").
Proof.
  split.
  - destruct (init_requires_api_key "." "./chroma_db" (demo_machine [] ∅ demo_adapter))
      as (_ & _ & _ & Hset).
    apply (Hset "sk-test"); [reflexivity|discriminate].
  - destruct (init_requires_api_key "." "./chroma_db"
                (mkMachine blank (demo_world ∅ [] ∅ demo_adapter)))
      as (_ & _ & Hunset & _).
    apply Hunset. left. reflexivity.
Defined.

Lemma ask_before_ready_witness :
  let m := demo_machine [cca_pdf] ∅ demo_adapter in
  ~ READY (self m) /\
  ask_question dot blank_line "What is causal component analysis?" m =
    (Raise (ValueError "QA chain not initialized. Call setup_qa_chain first."), m).
Proof.
  assert (H : ~ READY (self (demo_machine [cca_pdf] ∅ demo_adapter))).
  { intros [chain Hc]. simpl in Hc. discriminate. }
  split; [exact H|].
  exact (ask_before_ready dot blank_line "What is causal component analysis?" _ H).
Defined.

Lemma initialize_empty_corpus_witness :
  let m := demo_machine [] ∅ demo_adapter in
  pdf_glob (world m) (pdf_directory (self m)) = [] /\
  fst (initialize whole_page m) = Raise (ValueError "No PDF files found in .") /\
  vectorstore (self (snd (initialize whole_page m))) = None.
Proof.
  assert (H : pdf_glob (world (demo_machine [] ∅ demo_adapter))
                (pdf_directory (self (demo_machine [] ∅ demo_adapter))) = []).
  { reflexivity. }
  destruct (initialize_empty_corpus whole_page _ H) as (Hraise & Hself & _).
  split; [exact H|]. split; [exact Hraise|]. rewrite Hself. reflexivity.
Defined.

Lemma retrieval_bounded_witness :
  vectorstore (self stored_machine) = Some demo_store /\
  (exists chain : RetrievalQA,
     qa_chain (self (snd (setup_qa_chain stored_machine))) = Some chain /\
     ret_vectorstore (retriever chain) = demo_store /\
     search_k (retriever chain) = 4) /\
  match fst (retrieve dot (as_retriever demo_store 4) "alpha?" stored_machine) with
  | Ok hits =>
      length hits <= 4 /\ length hits <= length demo_records /\
      Sorted score_ge hits
  | Raise e => e = EmbeddingError
  end.
Proof.
  assert (H : vectorstore (self stored_machine) = Some demo_store) by reflexivity.
  destruct (retrieval_bounded dot) as [Hretrieve Hk].
  split; [exact H|]. split; [exact (Hk demo_store stored_machine H)|].
  exact (Hretrieve (as_retriever demo_store 4) "alpha?" stored_machine).
Defined.

Lemma build_then_load_witness :
  let m := demo_machine [cca_pdf] ∅ demo_adapter in
  let m1 := snd (create_vectorstore whole_page cca_documents m) in
  create_vectorstore whole_page cca_documents m = (Ok tt, m1) /\
  exists (built loaded : Chroma) (m2 : Machine),
    vectorstore (self m1) = Some built /\
    load_existing (restart m1) = (Ok tt, m2) /\
    vectorstore (self m2) = Some loaded /\
    forall (v : vector) (k : nat),
      query dot (index loaded) v k = query dot (index built) v k.
Proof.
  intros m m1.
  assert (H : create_vectorstore whole_page cca_documents m = (Ok tt, m1)).
  { vm_compute. reflexivity. }
  split; [exact H|].
  exact (build_then_load whole_page dot cca_documents m m1 H).
Defined.

Lemma single_prompt_witness :
  let v := [inject_Z 6; inject_Z 6] in
  let ready := snd (setup_qa_chain stored_machine) in
  vectorstore (self stored_machine) = Some demo_store /\
  embed (embedding_function demo_store) "alpha?" = Some v /\
  new_events ready (snd (ask_question dot blank_line "alpha?" ready)) =
    [EvEmbedQuery "alpha?";
     EvGenerate (mkChatOpenAI "gpt-3.5-turbo" 0)
       ("Use the following pieces of context to answer the question at the end. " +:+ nl +:+
        "If you don't know the answer, just say that you don't know, don't try to make up an answer." +:+ nl +:+
        nl +:+
        "Context: " +:+
        String.concat blank_line
          (map (fun hit => rec_text (fst hit)) (query dot (index demo_store) v 4)) +:+ nl +:+
        nl +:+
        "Question: " +:+ "alpha?" +:+ nl +:+
        nl +:+
        "Answer: ")].
Proof.
  intros v ready.
  assert (Hvs : vectorstore (self stored_machine) = Some demo_store) by reflexivity.
  assert (Hv : embed (embedding_function demo_store) "alpha?" = Some v) by reflexivity.
  split; [exact Hvs|]. split; [exact Hv|].
  exact (single_prompt dot blank_line demo_store "alpha?" v stored_machine Hvs Hv).
Defined.

Example prompt_passages_in_rank_order :
  map (fun hit => rec_text (fst hit))
      (query dot (index demo_store) [inject_Z 6; inject_Z 6] 4) =
    ["gamma"; "epsilon"; "alpha"; "beta"].
Proof. reflexivity. Qed.

(** ** The drivers on concrete inputs *)

Example strip_and_lower :
  strip "   Quit  " = "Quit" /\ lower "Quit" = "quit" /\
  is_quit (strip "  EXIT ") = true /\ is_quit (strip "quit now") = false /\
  strip (String (ascii_of_nat 9) " ") = "".
Proof. repeat split. Qed.

Example questions_of_a_session :
  questions_before_quit ["  alpha? "; ""; "   "; "beta?"; "Q"; "gamma?"] =
    ["alpha?"; "beta?"].
Proof. reflexivity. Qed.

Example demo_first_run :
  let m := demo_machine [cca_pdf] ∅ demo_adapter in
  fst (demo_main whole_page dot blank_line ["What is X?"; ""; "quit"] m) = Returned tt /\
  asked (trace (world (snd (demo_main whole_page dot blank_line
                              ["What is X?"; ""; "quit"] m)))) = ["What is X?"].
Proof. vm_compute. split; reflexivity. Qed.

Example page_retries_after_failure :
  let m := demo_machine [] ∅ demo_adapter in
  fst (script_runs whole_page dot blank_line [(true, "alpha?"); (false, "beta?")]
         new_session m) =
    Returned (mkSession None false (Some "beta?")) /\
  trace (world (snd (script_runs whole_page dot blank_line
                       [(true, "alpha?"); (false, "beta?")] new_session m))) =
    [EvGlob "."; EvGlob "."].
Proof. vm_compute. split; reflexivity. Qed.



Lemma initialize_ready_iff_ok_witness :
  let m := demo_machine [cca_pdf] ∅ demo_adapter in
  ~ READY (self m) /\
  (fst (initialize whole_page m) = Ok tt <->
   READY (self (snd (initialize whole_page m)))).
Proof.
  intros m.
  assert (H : ~ READY (self m)).
  { intros [chain Hc]. simpl in Hc. discriminate. }
  split; [exact H|].
  exact (proj1 (initialize_ready_iff_ok whole_page m H)).
Defined.

Lemma main_needs_api_key_witness :
  truthy (getenv (world no_key_machine) "OPENAI_API_KEY") = false /\
  fst (main whole_page dot blank_line ["rag_system.py"] no_key_machine) =
    Escaped (Pipeline (ValueError
      "OPENAI_API_KEY environment variable not set. Please set it in .env file or environment.")).
Proof.
  assert (H : truthy (getenv (world no_key_machine) "OPENAI_API_KEY") = false)
    by reflexivity.
  split; [exact H|].
  exact (proj1 (main_needs_api_key whole_page dot blank_line ["rag_system.py"]
                  no_key_machine H)).
Defined.

Lemma main_usage_touches_nothing_witness :
  let m := demo_machine [cca_pdf] ∅ demo_adapter in
  let argv := ["rag_system.py"; "query"] in
  world (snd (main whole_page dot blank_line argv m)) = world m /\
  fst (main whole_page dot blank_line argv m) = Escaped (SystemExit 1).
Proof.
  intros m argv.
  assert (Hkey : truthy (getenv (world m) "OPENAI_API_KEY") = true) by reflexivity.
  assert (Hinit : argv !! 1 <> Some "init") by discriminate.
  assert (Hquery : argv !! 1 = Some "query" -> argv !! 2 = None) by reflexivity.
  exact (main_usage_touches_nothing whole_page dot blank_line argv m Hkey Hinit Hquery).
Defined.

Lemma question_loop_ends_witness :
  let stdin := ["alpha?"; " "; "exit"; "beta?"] in
  Forall (fun line => is_ascii_text line = true) stdin /\
  fst (question_loop dot blank_line stdin ready_machine) = Returned tt.
Proof.
  intros stdin.
  assert (Hascii : Forall (fun line => is_ascii_text line = true) stdin).
  { repeat constructor. }
  split; [exact Hascii|].
  exact (question_loop_ends dot blank_line stdin ready_machine Hascii).
Defined.

Lemma question_loop_asks_witness :
  let stdin := ["alpha?"; " "; "exit"; "beta?"] in
  Forall (fun line => is_ascii_text line = true) stdin /\
  READY (self ready_machine) /\
  asked (new_events ready_machine
           (snd (question_loop dot blank_line stdin ready_machine))) =
    ["alpha?"].
Proof.
  intros stdin.
  assert (Hascii : Forall (fun line => is_ascii_text line = true) stdin).
  { repeat constructor. }
  assert (H : READY (self ready_machine)).
  { eexists. reflexivity. }
  split; [exact Hascii|]. split; [exact H|].
  exact (question_loop_asks dot blank_line stdin ready_machine Hascii H).
Defined.

Lemma missing_key_in_drivers_witness :
  truthy (getenv (world no_key_machine) "OPENAI_API_KEY") = false /\
  fst (demo_main whole_page dot blank_line ["quit"] no_key_machine) =
    Escaped (Pipeline (ValueError
      "OPENAI_API_KEY environment variable not set. Please set it in .env file or environment.")) /\
  fst (initialize_rag_system whole_page no_key_machine) = Returned None.
Proof.
  assert (H : truthy (getenv (world no_key_machine) "OPENAI_API_KEY") = false)
    by reflexivity.
  split; [exact H|].
  exact (missing_key_in_drivers whole_page dot blank_line ["quit"] no_key_machine H).
Defined.

Lemma demo_setup_ready_witness :
  let m := demo_machine [cca_pdf] ∅ demo_adapter in
  fst (demo_setup whole_page m) = Returned true /\
  (true = true <-> READY (self (snd (demo_setup whole_page m)))).
Proof.
  intros m.
  assert (H : fst (demo_setup whole_page m) = Returned true).
  { vm_compute. reflexivity. }
  split; [exact H|].
  exact (demo_setup_ready whole_page m true H).
Defined.

Lemma initialized_session_no_setup_witness :
  let s := mkSession (Some (self ready_machine)) true None in
  st_initialized s = true /\
  Forall (fun e => is_setup_event e = false)
         (new_events ready_machine
            (snd (script_run whole_page dot blank_line true "alpha?" s ready_machine))).
Proof.
  intros s.
  assert (H : st_initialized s = true) by reflexivity.
  split; [exact H|].
  exact (initialized_session_no_setup whole_page dot blank_line true "alpha?" s
           ready_machine H).
Defined.



Example test_pdf_loading_dangling_link :
  fst (test_pdf_loading (fun pdf => String.eqb (pdf_path pdf) "cca.pdf")
         (demo_machine [cca_pdf; notes_pdf] ∅ demo_adapter)) =
    Escaped OSError.
Proof. reflexivity. Qed.

Example test_main_empty_directory :
  fst (test_main whole_page (fun _ => Imports) None (fun _ => true)
         (demo_machine [] ∅ demo_adapter)) =
    Returned 1%Z.
Proof. reflexivity. Qed.

Example test_main_passes :
  fst (test_main whole_page (fun _ => Imports) None (fun _ => true)
         (demo_machine [cca_pdf] ∅ demo_adapter)) =
    Returned 0%Z.
Proof. reflexivity. Qed.
